(** * viewrx: the prescription REST facade of [main.py]

    A shallow embedding of the four request handlers of [main.py]
    ([create_prescription], [get_prescriptions], [get_prescription],
    [delete_prescription]), of the pydantic models they use ([Medicine],
    [FormData], [PrescriptionResponse]) and of the request builder they hand
    to the store client.

    Python values that travel between the handlers and the store are JSON
    values; Python's unbounded [int] is [Z]; a [dict] is an association list
    in insertion order, read at the first binding of a key.  JSON numbers
    with a fraction do not occur in the models of [main.py] and are left out
    of [json]. *)

From Stdlib Require Import ZArith List String Bool Lia DecimalString.
Import ListNotations.
Local Open Scope string_scope.
Local Open Scope Z_scope.
Set Warnings "-register-all".

(** ** Values *)

Inductive json : Type :=
| JNull
| JBool (b : bool)
| JInt (n : Z)
| JStr (s : string)
| JList (items : list json)
| JDict (fields : list (string * json)).

Definition dict := list (string * json).

Fixpoint json_eqb (a b : json) {struct a} : bool :=
  match a, b with
  | JNull, JNull => true
  | JBool x, JBool y => Bool.eqb x y
  | JInt x, JInt y => Z.eqb x y
  | JStr x, JStr y => String.eqb x y
  | JList xs, JList ys =>
      (fix items (xs ys : list json) {struct xs} : bool :=
         match xs, ys with
         | [], [] => true
         | x :: xs', y :: ys' => json_eqb x y && items xs' ys'
         | _, _ => false
         end) xs ys
  | JDict xs, JDict ys =>
      (fix fields (xs ys : list (string * json)) {struct xs} : bool :=
         match xs, ys with
         | [], [] => true
         | (k, x) :: xs', (l, y) :: ys' =>
             String.eqb k l && json_eqb x y && fields xs' ys'
         | _, _ => false
         end) xs ys
  | _, _ => false
  end.

(** [d.get(key)]: the first binding of [key]. *)
Fixpoint dict_get (key : string) (d : dict) : option json :=
  match d with
  | [] => None
  | (k, v) :: rest => if String.eqb k key then Some v else dict_get key rest
  end.

(** [d[key] = value]: an existing key keeps its place, a new one goes last. *)
Fixpoint dict_set (key : string) (value : json) (d : dict) : dict :=
  match d with
  | [] => [(key, value)]
  | (k, v) :: rest =>
      if String.eqb k key then (k, value) :: rest
      else (k, v) :: dict_set key value rest
  end.

(** ** Exceptions and results *)

(** One entry of a pydantic validation error: where, of what kind, and the
    input reported with it: the value that was refused, or for a missing
    field the dict the field is missing from. *)
Inductive error_kind : Type :=
| Missing
| Refused.

Record field_error : Type := FieldError {
  loc : list json;
  kind : error_kind;
  input : json
}.

Inductive exn : Type :=
| HTTPException (status_code : Z) (detail : string)
| KeyError (key : string)
| TypeError (culprit : json)
| ValidationError (model : string) (errors : list field_error)
| StoreError (message : string).

Definition is_HTTPException (e : exn) : bool :=
  match e with
  | HTTPException _ _ => true
  | _ => false
  end.

Inductive Res (A : Type) : Type :=
| Return (value : A)
| Raise (e : exn).
Arguments Return {A} value.
Arguments Raise {A} e.

Definition res_bind {A B : Type} (r : Res A) (k : A -> Res B) : Res B :=
  match r with
  | Return a => k a
  | Raise e => Raise e
  end.

Fixpoint res_map {A B : Type} (f : A -> Res B) (xs : list A) : Res (list B) :=
  match xs with
  | [] => Return []
  | x :: rest =>
      res_bind (f x) (fun y =>
      res_bind (res_map f rest) (fun ys => Return (y :: ys)))
  end.

(** ** The pydantic models (main.py, lines 37-60) *)

Record Medicine : Type := mkMedicine {
  name : string;
  dosage : string;
  frequency : string;
  note : string
}.

Record FormData : Type := mkFormData {
  drid : Z;
  sendToValue : string;
  patientName : string;
  patientAge : string;
  patientDescription : string;
  currentDate : string;
  medicines : list Medicine
}.

Record PrescriptionResponse : Type := mkPrescriptionResponse {
  id : Z;
  r_drid : Z;
  r_sendToValue : string;
  r_patientName : string;
  r_patientAge : string;
  r_patientDescription : string;
  r_currentDate : string;
  r_medicines : list Medicine
}.

(** The record a creation payload becomes once the store has given it an
    [id]. *)
Definition with_id (i : Z) (f : FormData) : PrescriptionResponse :=
  mkPrescriptionResponse i (drid f) (sendToValue f) (patientName f)
    (patientAge f) (patientDescription f) (currentDate f) (medicines f).

(** [med.dict()] *)
Definition Medicine_dict (m : Medicine) : json :=
  JDict [("name", JStr (name m)); ("dosage", JStr (dosage m));
         ("frequency", JStr (frequency m)); ("note", JStr (note m))].

(** [form_data.dict()]: pydantic turns nested models into dicts as well. *)
Definition FormData_dict (f : FormData) : dict :=
  [("drid", JInt (drid f));
   ("sendToValue", JStr (sendToValue f));
   ("patientName", JStr (patientName f));
   ("patientAge", JStr (patientAge f));
   ("patientDescription", JStr (patientDescription f));
   ("currentDate", JStr (currentDate f));
   ("medicines", JList (map Medicine_dict (medicines f)))].

(** The wire shape of a response: the same fields, led by [id]. *)
Definition PrescriptionResponse_dict (p : PrescriptionResponse) : dict :=
  [("id", JInt (id p));
   ("drid", JInt (r_drid p));
   ("sendToValue", JStr (r_sendToValue p));
   ("patientName", JStr (r_patientName p));
   ("patientAge", JStr (r_patientAge p));
   ("patientDescription", JStr (r_patientDescription p));
   ("currentDate", JStr (r_currentDate p));
   ("medicines", JList (map Medicine_dict (r_medicines p)))].

(** A validated field: the value, or the error entry to report. *)
Definition field {A : Type} (validate : json -> option A) (key : string)
    (d : dict) : A + field_error :=
  match dict_get key d with
  | None => inr (FieldError [JStr key] Missing (JDict d))
  | Some v =>
      match validate v with
      | Some a => inl a
      | None => inr (FieldError [JStr key] Refused v)
      end
  end.

Definition field_errors {A : Type} (r : A + field_error) : list field_error :=
  match r with
  | inl _ => []
  | inr e => [e]
  end.

(** Python iteration over a JSON value, as in [for med in row["medicines"]]:
    a list gives its items, a string its characters, a dict its keys;
    anything else is not iterable. *)
Fixpoint characters (s : string) : list json :=
  match s with
  | EmptyString => []
  | String c rest => JStr (String c EmptyString) :: characters rest
  end.

Definition iterate (v : json) : Res (list json) :=
  match v with
  | JList items => Return items
  | JStr s => Return (characters s)
  | JDict fields => Return (map (fun kv => JStr (fst kv)) fields)
  | _ => Raise (TypeError v)
  end.

(** [row[key]] on a value handed back by the store. *)
Definition getitem (row : json) (key : string) : Res json :=
  match row with
  | JDict d =>
      match dict_get key d with
      | Some v => Return v
      | None => Raise (KeyError key)
      end
  | _ => Raise (TypeError row)
  end.

(** ** The request builder of the store client

    [supabase.table(t)] starts a request; [.insert(row)], [.select(cols)],
    [.delete()] and [.eq(column, value)] extend it; [.execute()] sends it. *)

Inductive request : Type :=
| table (t : string)
| insert (q : request) (row : json)
| select (q : request) (columns : string)
| delete (q : request)
| eq (q : request) (column : string) (value : json).

(** The builder [supabase.table(t)] gives offers the verbs, [.select],
    [.insert] and [.delete], and nothing else; [.eq] and [.execute] are
    offered by the builders the verbs give.  A request that names no verb
    has called what its builder does not offer. *)
Fixpoint names_verb (q : request) : bool :=
  match q with
  | table _ => false
  | insert _ _ | select _ _ | delete _ => true
  | eq q' _ _ => names_verb q'
  end.

(** The attribute such a request has called in vain: [.eq], or [.execute]
    when it has called no [.eq]. *)
Definition missing_attribute (q : request) : string :=
  match q with
  | eq _ _ _ => "eq"
  | _ => "execute"
  end.

(** What [.execute()] hands back: [result.data], or an exception of the
    client carrying its message. *)
Inductive executed : Type :=
| Data (rows : list json)
| Failed (message : string).

(** [if drid:] on an [Optional[int]]: [None] and [0] are both false. *)
Definition truthy (drid : option Z) : bool :=
  match drid with
  | Some n => negb (n =? 0)
  | None => false
  end.

(** [not result.data] *)
Definition not_ (data : list json) : bool :=
  match data with
  | [] => true
  | _ :: _ => false
  end.

(** ** Responses

    An [HTTPException] leaving a handler is answered with its status code
    and the body [{"detail": detail}]; a request that cannot be bound to the
    handler's parameters with status 422 and the list of field errors; any
    other exception with a bare status 500. *)

Inductive response : Type :=
| OK (body : json)
| HTTPError (status_code : Z) (detail : string)
| UnprocessableEntity (errors : list field_error)
| InternalServerError.

Definition status (r : response) : Z :=
  match r with
  | OK _ => 200
  | HTTPError c _ => c
  | UnprocessableEntity _ => 422
  | InternalServerError => 500
  end.


Definition respond {A : Type} (encode : A -> json) (r : Res A) : response :=
  match r with
  | Return a => OK (encode a)
  | Raise (HTTPException c d) => HTTPError c d
  | Raise _ => InternalServerError
  end.

(** ** Schema layer and handlers *)

Section Handlers.

(** pydantic's validators for an [int] and a [str] field: which foreign
    values they coerce depends on the pydantic version, so they are left
    open; see [validate_int_ok] and [validate_str_ok] below. *)
Variable validate_int : json -> option Z.
Variable validate_str : json -> option string.

(** Python's [str(e)]. *)
Variable exn_str : exn -> string.

(** The store behind the client, and [.execute()]. *)
Variable S : Type.
Variable execute : request -> S -> executed * S.

(** *** Validation *)

Definition Medicine_validate (d : dict) : Medicine + list field_error :=
  let n := field validate_str "name" d in
  let ds := field validate_str "dosage" d in
  let fr := field validate_str "frequency" d in
  let nt := field validate_str "note" d in
  match n, ds, fr, nt with
  | inl n', inl ds', inl fr', inl nt' => inl (mkMedicine n' ds' fr' nt')
  | _, _, _, _ =>
      inr (field_errors n ++ field_errors ds ++ field_errors fr
           ++ field_errors nt)%list
  end.

(** [Medicine( **med)] *)
Definition Medicine_init (med : json) : Res Medicine :=
  match med with
  | JDict d =>
      match Medicine_validate d with
      | inl m => Return m
      | inr errs => Raise (ValidationError "Medicine" errs)
      end
  | _ => Raise (TypeError med)
  end.

(** [PrescriptionResponse( **row)] once [row["medicines"]] holds [meds]:
    [Medicine] objects pass the [List[Medicine]] field as they are, keys
    that are not fields are ignored. *)
Definition PrescriptionResponse_init (row : dict) (meds : list Medicine)
    : Res PrescriptionResponse :=
  let i := field validate_int "id" row in
  let d := field validate_int "drid" row in
  let s := field validate_str "sendToValue" row in
  let n := field validate_str "patientName" row in
  let a := field validate_str "patientAge" row in
  let ds := field validate_str "patientDescription" row in
  let c := field validate_str "currentDate" row in
  match i, d, s, n, a, ds, c with
  | inl i', inl d', inl s', inl n', inl a', inl ds', inl c' =>
      Return (mkPrescriptionResponse i' d' s' n' a' ds' c' meds)
  | _, _, _, _, _, _, _ =>
      Raise (ValidationError "PrescriptionResponse"
               (field_errors i ++ field_errors d ++ field_errors s
                ++ field_errors n ++ field_errors a ++ field_errors ds
                ++ field_errors c)%list)
  end.

(** The three lines every reading handler runs on a row of the store
    (main.py, lines 82-84, 109-110 and 129-131):
[[
  row["medicines"] = [Medicine( **med) for med in row["medicines"]]
  PrescriptionResponse( **row)
]] *)
Definition to_response (row : json) : Res PrescriptionResponse :=
  res_bind (getitem row "medicines") (fun raw =>
  res_bind (iterate raw) (fun meds =>
  res_bind (res_map Medicine_init meds) (fun objects =>
  match row with
  | JDict d => PrescriptionResponse_init d objects
  | _ => Raise (TypeError row)
  end))).

(** *** Handlers: a computation reads and updates the store and either
    returns or raises *)

Definition M (A : Type) : Type := S -> Res A * S.

Definition ret {A : Type} (a : A) : M A := fun s => (Return a, s).

Definition raise {A : Type} (e : exn) : M A := fun s => (Raise e, s).

Definition bind {A B : Type} (c : M A) (k : A -> M B) : M B :=
  fun s =>
    match c s with
    | (Return a, s') => k a s'
    | (Raise e, s') => (Raise e, s')
    end.

Definition lift {A : Type} (r : Res A) : M A := fun s => (r, s).

(** [try: body except ... as e: handler] *)
Definition try_except {A : Type} (body : M A) (handler : exn -> M A) : M A :=
  fun s =>
    match body s with
    | (Return a, s') => (Return a, s')
    | (Raise e, s') => handler e s'
    end.

(** [request.execute()], giving [result.data] *)
Definition execute_data (q : request) : M (list json) :=
  fun s =>
    match execute q s with
    | (Data rows, s') => (Return rows, s')
    | (Failed message, s') => (Raise (StoreError message), s')
    end.

Notation "x <- c ;; k" := (bind c (fun x => k))
  (at level 61, c at next level, right associativity).

(** [except Exception as e: raise HTTPException(500, f"An error occurred: {str(e)}")] *)
Definition except_Exception {A : Type} (e : exn) : M A :=
  raise (HTTPException 500 ("An error occurred: " ++ exn_str e)).

(** main.py, lines 62-87 *)
Definition create_prescription (form_data : FormData)
    : M PrescriptionResponse :=
  try_except
    (let prescription_data := FormData_dict form_data in
     let prescription_data :=
       dict_set "medicines"
         (JList (map Medicine_dict (medicines form_data)))
         prescription_data in
     data <- execute_data
               (insert (table "prescriptions") (JDict prescription_data)) ;;
     if not_ data
     then raise (HTTPException 500 "Failed to store prescription")
     else
       let new_prescription := hd JNull data in
       lift (to_response new_prescription))
    except_Exception.

(** main.py, lines 89-115 *)
Definition get_prescriptions (drid : option Z)
    : M (list PrescriptionResponse) :=
  try_except
    (let query := table "prescriptions" in
     let query :=
       match drid with
       | Some n => if truthy drid then eq query "drid" (JInt n) else query
       | None => query
       end in
     data <- execute_data query ;;
     if not_ data
     then ret []
     else lift (res_map to_response data))
    except_Exception.

(** main.py, lines 117-136 *)
Definition get_prescription (prescription_id : Z)
    : M PrescriptionResponse :=
  try_except
    (data <- execute_data
               (eq (select (table "prescriptions") "*")
                   "id" (JInt prescription_id)) ;;
     if not_ data
     then raise (HTTPException 404 "Prescription not found")
     else
       let prescription := hd JNull data in
       lift (to_response prescription))
    (fun e => if is_HTTPException e then raise e else except_Exception e).

(** main.py, lines 138-152 *)
Definition delete_prescription (prescription_id : Z) : M json :=
  try_except
    (data <- execute_data
               (eq (delete (table "prescriptions"))
                   "id" (JInt prescription_id)) ;;
     if not_ data
     then raise (HTTPException 404 "Prescription not found")
     else ret (JDict [("message", JStr "Prescription deleted successfully")]))
    except_Exception.

(** *** The routes

    FastAPI binds the request to the handler's parameters before the
    handler runs: the body of [POST /prescriptions/] is validated against
    [FormData], and a body that fails is answered with status 422 and the
    list of field errors, each located under ["body"], the handler never
    being called. *)

Definition under (prefix : list json) (e : field_error) : field_error :=
  FieldError (prefix ++ loc e)%list (kind e) (input e).

Definition errors_of {A : Type} (r : A + list field_error)
    : list field_error :=
  match r with
  | inl _ => []
  | inr errs => errs
  end.

Definition Medicine_item (i : Z) (v : json) : Medicine + list field_error :=
  match v with
  | JDict d =>
      match Medicine_validate d with
      | inl m => inl m
      | inr errs => inr (map (under [JStr "medicines"; JInt i]) errs)
      end
  | _ => inr [FieldError [JStr "medicines"; JInt i] Refused v]
  end.

Fixpoint Medicine_items (i : Z) (vs : list json)
    : list Medicine + list field_error :=
  match vs with
  | [] => inl []
  | v :: rest =>
      let m := Medicine_item i v in
      let ms := Medicine_items (i + 1) rest in
      match m, ms with
      | inl m', inl ms' => inl (m' :: ms')
      | _, _ => inr (errors_of m ++ errors_of ms)%list
      end
  end.

(** The [medicines] of a payload. *)
Definition medicines_field (b : dict) : list Medicine + list field_error :=
  match dict_get "medicines" b with
  | None => inr [FieldError [JStr "medicines"] Missing (JDict b)]
  | Some (JList items) => Medicine_items 0 items
  | Some v => inr [FieldError [JStr "medicines"] Refused v]
  end.

(** Every error of a payload, field by field in the order of the model. *)
Definition FormData_errors (b : dict) : list field_error :=
  (field_errors (field validate_int "drid" b)
   ++ field_errors (field validate_str "sendToValue" b)
   ++ field_errors (field validate_str "patientName" b)
   ++ field_errors (field validate_str "patientAge" b)
   ++ field_errors (field validate_str "patientDescription" b)
   ++ field_errors (field validate_str "currentDate" b)
   ++ errors_of (medicines_field b))%list.

Definition FormData_validate (body : json) : FormData + list field_error :=
  match body with
  | JDict b =>
      match field validate_int "drid" b,
            field validate_str "sendToValue" b,
            field validate_str "patientName" b,
            field validate_str "patientAge" b,
            field validate_str "patientDescription" b,
            field validate_str "currentDate" b,
            medicines_field b with
      | inl d', inl s', inl n', inl a', inl ds', inl c', inl ms' =>
          inl (mkFormData d' s' n' a' ds' c' ms')
      | _, _, _, _, _, _, _ => inr (FormData_errors b)
      end
  | _ => inr [FieldError [] Refused body]
  end.

Definition served {A : Type} (encode : A -> json) (c : M A)
    : S -> response * S :=
  fun s => let (r, s') := c s in (respond encode r, s').

Definition encode_prescription (p : PrescriptionResponse) : json :=
  JDict (PrescriptionResponse_dict p).

(** [POST /prescriptions/] *)
Definition post_prescriptions (body : json) : S -> response * S :=
  match FormData_validate body with
  | inl form_data =>
      served encode_prescription (create_prescription form_data)
  | inr errs =>
      fun s => (UnprocessableEntity (map (under [JStr "body"]) errs), s)
  end.

(** [GET /prescriptions/] *)
Definition list_prescriptions (drid : option Z) : S -> response * S :=
  served (fun ps => JList (map encode_prescription ps))
         (get_prescriptions drid).

(** [GET /prescriptions/{prescription_id}] *)
Definition read_prescription (prescription_id : Z) : S -> response * S :=
  served encode_prescription (get_prescription prescription_id).

(** [DELETE /prescriptions/{prescription_id}] *)
Definition remove_prescription (prescription_id : Z) : S -> response * S :=
  served (fun v => v) (delete_prescription prescription_id).

End Handlers.

Arguments create_prescription validate_int validate_str exn_str {S} execute.
Arguments get_prescriptions validate_int validate_str exn_str {S} execute.
Arguments get_prescription validate_int validate_str exn_str {S} execute.
Arguments delete_prescription exn_str {S} execute.
Arguments post_prescriptions validate_int validate_str exn_str {S} execute.
Arguments list_prescriptions validate_int validate_str exn_str {S} execute.
Arguments read_prescription validate_int validate_str exn_str {S} execute.
Arguments remove_prescription exn_str {S} execute.

(** The requests the handlers send. *)
Definition creating (form_data : FormData) : request :=
  insert (table "prescriptions") (JDict (FormData_dict form_data)).

Definition listing (drid : option Z) : request :=
  match drid with
  | Some n =>
      if truthy drid then eq (table "prescriptions") "drid" (JInt n)
      else table "prescriptions"
  | None => table "prescriptions"
  end.

Definition reading (prescription_id : Z) : request :=
  eq (select (table "prescriptions") "*") "id" (JInt prescription_id).

Definition deleting (prescription_id : Z) : request :=
  eq (delete (table "prescriptions")) "id" (JInt prescription_id).


Definition message : json :=
  JDict [("message", JStr "Prescription deleted successfully")].


(** ** A table store

    The store the handlers are written against, as far as they rely on it:
    one table, [prescriptions], kept in insertion order; an insert stores the
    row under an [id] the table assigns from a counter and hands the stored
    row back; a read hands back the rows that satisfy every [.eq] filter; a
    delete removes those rows and hands them back.  A request that names no
    verb never reaches the table: the client raises the [AttributeError] of
    the call its builder does not offer. *)

Module Table.

Record store : Type := mkStore {
  rows : list dict;
  next_id : Z
}.

Definition empty : store := mkStore [] 1.

Inductive verb : Type :=
| Read
| Insert (row : json)
| Delete.

Fixpoint table_of (q : request) : string :=
  match q with
  | table t => t
  | insert q' _ | select q' _ | delete q' | eq q' _ _ => table_of q'
  end.

Fixpoint verb_of (q : request) : option verb :=
  match q with
  | table _ => None
  | insert _ row => Some (Insert row)
  | select _ _ => Some Read
  | delete _ => Some Delete
  | eq q' _ _ => verb_of q'
  end.

Fixpoint filters_of (q : request) : list (string * json) :=
  match q with
  | table _ => []
  | eq q' column value => (column, value) :: filters_of q'
  | insert q' _ | select q' _ | delete q' => filters_of q'
  end.

Definition satisfies (row : dict) (f : string * json) : bool :=
  match dict_get (fst f) row with
  | Some v => json_eqb v (snd f)
  | None => false
  end.

Definition matches (fs : list (string * json)) (row : dict) : bool :=
  forallb (satisfies row) fs.

Definition refusal (q : request) : string :=
  "'SyncRequestBuilder' object has no attribute '"
  ++ missing_attribute q ++ "'".

Definition execute (q : request) (st : store) : executed * store :=
  let hit := matches (filters_of q) in
  match verb_of q with
  | None => (Failed (refusal q), st)
  | Some v =>
      if String.eqb (table_of q) "prescriptions" then
        match v with
        | Read => (Data (map JDict (filter hit (rows st))), st)
        | Insert (JDict d) =>
            let row := ("id", JInt (next_id st)) :: d in
            (Data [JDict row], mkStore (rows st ++ [row]) (next_id st + 1))
        | Insert _ => (Failed "row is not an object", st)
        | Delete =>
            (Data (map JDict (filter hit (rows st))),
             mkStore (filter (fun r => negb (hit r)) (rows st)) (next_id st))
        end
      else (Failed "relation does not exist", st)
  end.

(** Every stored row carries an integer [id] below the counter. *)
Definition below (n : Z) (row : dict) : bool :=
  match dict_get "id" row with
  | Some (JInt i) => i <? n
  | _ => false
  end.

Definition fresh_ids (st : store) : bool :=
  forallb (below (next_id st)) (rows st).

(** The rows found under an [id]. *)
Definition has_id (i : Z) (row : dict) : bool :=
  satisfies row ("id", JInt i).

End Table.

(** ** Instances to run the handlers on

    Validators that accept a value of the field's own type and nothing else,
    and [message_of], one choice for [exn_str]: it keeps the detail, the key
    or the message an exception carries and leaves out what Python's [str]
    puts around it (the status code of an [HTTPException], the quotes of a
    [KeyError], the text of a [TypeError] or a [ValidationError]).  The
    theorems hold for every [exn_str]. *)

Definition strict_int (v : json) : option Z :=
  match v with
  | JInt n => Some n
  | _ => None
  end.

Definition strict_str (v : json) : option string :=
  match v with
  | JStr s => Some s
  | _ => None
  end.

Definition message_of (e : exn) : string :=
  match e with
  | HTTPException _ d => d
  | KeyError k => k
  | StoreError m => m
  | TypeError _ | ValidationError _ _ => ""
  end.

(** The prescription of the create scenario. *)
Definition jane : FormData :=
  mkFormData 1 "pharmacy" "Jane Doe" "34" "flu" "2024-01-01"
    [mkMedicine "Paracetamol" "500mg" "2x/day" "after meals"].

Definition john : FormData :=
  mkFormData 2 "clinic" "John Roe" "51" "cough" "2024-01-02" [].

Definition with_jane : Table.store :=
  snd (create_prescription strict_int strict_str message_of Table.execute
         jane Table.empty).

Definition with_both : Table.store :=
  snd (create_prescription strict_int strict_str message_of Table.execute
         john with_jane).

(** A table that holds two rows under one [id]. *)
Definition stored (i : Z) (f : FormData) : dict :=
  ("id", JInt i) :: FormData_dict f.

Definition twice : Table.store :=
  Table.mkStore [stored 1 jane; stored 1 john] 2.

(** A store that answers every request with no rows. *)
Definition silent (q : request) (s : unit) : executed * unit := (Data [], s).

(** The rows of a list of prescriptions kept under ids. *)
Definition stored_rows (recs : list (Z * FormData)) : list dict :=
  map (fun r => stored (fst r) (snd r)) recs.

(** The fields a creation payload must carry. *)
Definition text_fields : list string :=
  ["sendToValue"; "patientName"; "patientAge"; "patientDescription";
   "currentDate"].

Definition required_fields : list string :=
  ("drid" :: text_fields ++ ["medicines"])%list.


Definition canned (rows : list json) (q : request) (s : unit)
    : executed * unit :=
  (Data rows, s).

(** The keys of a row that [PrescriptionResponse] reads. *)
Definition response_fields : list string :=
  ("id" :: required_fields)%list.

(** The records left once those under id [i] are gone, and the first record
    under id [i]. *)
Definition without (i : Z) (recs : list (Z * FormData))
    : list (Z * FormData) :=
  filter (fun r => negb (fst r =? i)) recs.

Definition first_under (i : Z) (recs : list (Z * FormData))
    : option (Z * FormData) :=
  find (fun r => fst r =? i) recs.

(** A table whose second row has lost every column but its [id]. *)
Definition spoiled : Table.store :=
  Table.mkStore [stored 1 jane; [("id", JInt 2)]; stored 3 john] 4.

(** ** Start-up (main.py, lines 13-20)

    [os.getenv] gives [None] for a variable that is not set; [not v] holds
    of [None] and of the empty string.  [credentials] is what reaches
    [create_client], or the message of the [ValueError] that stops the
    module from loading. *)

Definition unset (v : option string) : bool :=
  match v with
  | None => true
  | Some s => String.eqb s ""
  end.

Definition credentials (getenv : string -> option string)
    : string + (string * string) :=
  let supabase_url := getenv "SUPABASE_URL" in
  let supabase_key := getenv "SUPABASE_KEY" in
  if unset supabase_url || unset supabase_key then
    inl "Missing Supabase credentials. Set SUPABASE_URL and SUPABASE_KEY in .env file"
  else
    match supabase_url, supabase_key with
    | Some url, Some key => inr (url, key)
    | _, _ =>
        inl "Missing Supabase credentials. Set SUPABASE_URL and SUPABASE_KEY in .env file"
    end.

(** An environment that sets the two variables, and one whose key is
    empty. *)
Definition dotenv (name : string) : option string :=
  if String.eqb name "SUPABASE_URL" then Some "https://db.example"
  else if String.eqb name "SUPABASE_KEY" then Some "secret"
  else None.

Definition dotenv_empty_key (name : string) : option string :=
  if String.eqb name "SUPABASE_URL" then Some "https://db.example"
  else if String.eqb name "SUPABASE_KEY" then Some ""
  else None.

(** A client refuses the requests that name no verb: it raises, and the
    store is not touched. *)
Definition refuses {S : Type} (execute : request -> S -> executed * S)
    : Prop :=
  forall q st, names_verb q = false -> exists m, execute q st = (Failed m, st).

(** A client that keeps a record of the requests it is sent. *)
Definition logged {S : Type} (execute : request -> S -> executed * S)
    (q : request) (s : S * list request) : executed * (S * list request) :=
  let (r, s') := execute q (fst s) in (r, (s', (snd s ++ [q])%list)).





(** * Properties *)

(** ** The schema layer *)

Section Schema.

Variable validate_int : json -> option Z.
Variable validate_str : json -> option string.

(** A value of the field's own type passes its validator unchanged. *)
Hypothesis validate_int_ok : forall n, validate_int (JInt n) = Some n.
Hypothesis validate_str_ok : forall s, validate_str (JStr s) = Some s.

Lemma Medicine_validate_dict (m : Medicine) :
  Medicine_validate validate_str
    [("name", JStr (name m)); ("dosage", JStr (dosage m));
     ("frequency", JStr (frequency m)); ("note", JStr (note m))] = inl m.
Proof.
  destruct m as [n d f t]. unfold Medicine_validate, field. cbn.
  now rewrite !validate_str_ok.
Qed.

Lemma Medicine_init_dict (m : Medicine) :
  Medicine_init validate_str (Medicine_dict m) = Return m.
Proof.
  unfold Medicine_init, Medicine_dict.
  now rewrite Medicine_validate_dict.
Qed.

Lemma res_map_Medicine_dict (ms : list Medicine) :
  res_map (Medicine_init validate_str) (map Medicine_dict ms) = Return ms.
Proof.
  induction ms as [|m ms IH]; [reflexivity|].
  change (map Medicine_dict (m :: ms))
    with (Medicine_dict m :: map Medicine_dict ms).
  cbn [res_map]. rewrite Medicine_init_dict. cbn [res_bind].
  now rewrite IH.
Qed.

Lemma Medicine_items_dict (ms : list Medicine) (i : Z) :
  Medicine_items validate_str i (map Medicine_dict ms) = inl ms.
Proof.
  revert i. induction ms as [|m ms IH]; intro i; [reflexivity|].
  cbn [map Medicine_items]. rewrite IH.
  unfold Medicine_item, Medicine_dict.
  now rewrite Medicine_validate_dict.
Qed.

(** Line 70 of main.py stores in [prescription_data] what [.dict()] had
    already put there. *)
Lemma dict_set_medicines (f : FormData) :
  dict_set "medicines" (JList (map Medicine_dict (medicines f)))
    (FormData_dict f) = FormData_dict f.
Proof. reflexivity. Qed.

Lemma to_response_stored (i : Z) (f : FormData) :
  to_response validate_int validate_str (JDict (stored i f))
  = Return (with_id i f).
Proof.
  unfold to_response, stored, FormData_dict. cbn [getitem dict_get].
  cbn. rewrite res_map_Medicine_dict. cbn [res_bind].
  unfold PrescriptionResponse_init, field. cbn.
  now rewrite !validate_int_ok, !validate_str_ok.
Qed.

Lemma stored_with_id (i : Z) (f : FormData) :
  PrescriptionResponse_dict (with_id i f) = stored i f.
Proof. reflexivity. Qed.

Lemma with_id_eta (p : PrescriptionResponse) :
  p = with_id (id p)
        (mkFormData (r_drid p) (r_sendToValue p) (r_patientName p)
           (r_patientAge p) (r_patientDescription p) (r_currentDate p)
           (r_medicines p)).
Proof. now destruct p. Qed.

Lemma FormData_validate_dict (f : FormData) :
  FormData_validate validate_int validate_str (JDict (FormData_dict f))
  = inl f.
Proof.
  destruct f as [d s n a ds c ms].
  unfold FormData_validate, FormData_dict, field. cbn.
  rewrite Medicine_items_dict.
  now rewrite !validate_int_ok, !validate_str_ok.
Qed.

(** A row never makes [to_response] raise an [HTTPException]. *)
Lemma res_map_raises {A B : Type} (f : A -> Res B) (xs : list A) (e : exn) :
  res_map f xs = Raise e -> exists x, In x xs /\ f x = Raise e.
Proof.
  induction xs as [|x xs IH]; cbn; [discriminate|].
  destruct (f x) as [y|e'] eqn:Hx; cbn.
  - destruct (res_map f xs) as [ys|e'']; cbn; [discriminate|].
    intros [= ->]. destruct (IH eq_refl) as [x' [Hin Hx']]. eauto.
  - intros [= ->]. eauto.
Qed.

Lemma Medicine_init_raises (med : json) (e : exn) :
  Medicine_init validate_str med = Raise e -> is_HTTPException e = false.
Proof.
  unfold Medicine_init.
  destruct med; try (intros [= <-]; reflexivity).
  destruct (Medicine_validate validate_str fields);
    [discriminate | intros [= <-]; reflexivity].
Qed.

Lemma PrescriptionResponse_init_raises (row : dict) (ms : list Medicine)
    (e : exn) :
  PrescriptionResponse_init validate_int validate_str row ms = Raise e ->
  is_HTTPException e = false.
Proof.
  unfold PrescriptionResponse_init.
  repeat match goal with
         | |- context [match ?x with inl _ => _ | inr _ => _ end] =>
             destruct x
         end;
    first [discriminate | intros [= <-]; reflexivity].
Qed.

Lemma to_response_raises (row : json) (e : exn) :
  to_response validate_int validate_str row = Raise e ->
  is_HTTPException e = false.
Proof.
  unfold to_response.
  destruct (getitem row "medicines") as [raw|e1] eqn:Hget; cbn.
  - destruct (iterate raw) as [meds|e2] eqn:Hit; cbn.
    + destruct (res_map (Medicine_init validate_str) meds) as [ms|e3] eqn:Hm;
        cbn.
      * destruct row; try (intros [= <-]; reflexivity).
        apply PrescriptionResponse_init_raises.
      * intros [= <-]. apply res_map_raises in Hm as [x [_ Hx]].
        now apply Medicine_init_raises in Hx.
    + intros [= <-]. destruct raw; cbn in Hit; try discriminate;
        now injection Hit as <-.
  - intros [= <-]. unfold getitem in Hget.
    destruct row; try (injection Hget as <-; reflexivity).
    destruct (dict_get "medicines" fields); [discriminate|].
    now injection Hget as <-.
Qed.

(** C5: a prescription serialized into its wire shape, medicines as nested
    plain dictionaries, parses back to the same record, the medicines in
    their original order; and so does a creation payload. *)
Theorem wire_round_trip (p : PrescriptionResponse) (f : FormData) :
  to_response validate_int validate_str (JDict (PrescriptionResponse_dict p))
  = Return p
  /\ FormData_validate validate_int validate_str (JDict (FormData_dict f))
     = inl f.
Proof.
  split; [|apply FormData_validate_dict].
  rewrite (with_id_eta p) at 1. rewrite stored_with_id, to_response_stored.
  now rewrite <- with_id_eta.
Qed.

End Schema.

Lemma wire_round_trip_witness :
  to_response strict_int strict_str
    (JDict (PrescriptionResponse_dict (with_id 1 jane)))
  = Return (with_id 1 jane)
  /\ FormData_validate strict_int strict_str (JDict (FormData_dict john))
     = inl john.
Proof.
  apply (wire_round_trip strict_int strict_str); intros; reflexivity.
Defined.

(** ** The handlers over any store *)

Section Gateway.

Variable validate_int : json -> option Z.
Variable validate_str : json -> option string.
Variable exn_str : exn -> string.
Variable S : Type.
Variable execute : request -> S -> executed * S.

Local Abbreviation create :=
  (create_prescription validate_int validate_str exn_str execute).
Local Abbreviation list_ :=
  (get_prescriptions validate_int validate_str exn_str execute).
Local Abbreviation get :=
  (get_prescription validate_int validate_str exn_str execute).
Local Abbreviation del := (delete_prescription exn_str execute).

Ltac run H :=
  unfold create_prescription, get_prescriptions,
    get_prescription, delete_prescription, try_except, bind, execute_data,
    except_Exception, raise, ret, lift;
  try rewrite dict_set_medicines;
  first [ rewrite H
        | unfold creating, reading, deleting, listing in H; rewrite H ];
  cbn [not_ hd is_HTTPException].

Lemma create_prescription_no_rows (f : FormData) (st st' : S) :
  execute (creating f) st = (Data [], st') ->
  create f st
  = (Raise (HTTPException 500
              ("An error occurred: "
               ++ exn_str (HTTPException 500 "Failed to store prescription"))),
     st').
Proof. intro H. now run H. Qed.

Lemma create_prescription_row (f : FormData) (st st' : S) (row : json)
    (rest : list json) :
  execute (creating f) st = (Data (row :: rest), st') ->
  create f st
  = (match to_response validate_int validate_str row with
     | Return p => Return p
     | Raise e =>
         Raise (HTTPException 500 ("An error occurred: " ++ exn_str e))
     end, st').
Proof.
  intro H. run H.
  now destruct (to_response validate_int validate_str row).
Qed.

Lemma get_prescriptions_sends (drid : option Z) (st : S) :
  list_ drid st
  = match execute (listing drid) st with
    | (Data [], st') => (Return [], st')
    | (Data rows, st') =>
        (match res_map (to_response validate_int validate_str) rows with
         | Return ps => Return ps
         | Raise e =>
             Raise (HTTPException 500 ("An error occurred: " ++ exn_str e))
         end, st')
    | (Failed m, st') =>
        (Raise (HTTPException 500
                  ("An error occurred: " ++ exn_str (StoreError m))), st')
    end.
Proof.
  unfold get_prescriptions, listing, try_except, bind, execute_data,
    except_Exception, raise, ret, lift.
  destruct drid as [n|]; [destruct (truthy (Some n))|];
    match goal with
    | |- context [execute ?q st] => destruct (execute q st) as [[rows|m] st']
    end; try reflexivity;
    (destruct rows as [|row rest]; [reflexivity|]; cbn [not_];
     now destruct (res_map _ (row :: rest))).
Qed.

Lemma get_prescription_no_rows (i : Z) (st st' : S) :
  execute (reading i) st = (Data [], st') ->
  get i st = (Raise (HTTPException 404 "Prescription not found"), st').
Proof. intro H. now run H. Qed.

Lemma get_prescription_row (i : Z) (st st' : S) (row : json)
    (rest : list json) :
  execute (reading i) st = (Data (row :: rest), st') ->
  get i st
  = (match to_response validate_int validate_str row with
     | Return p => Return p
     | Raise e =>
         Raise (HTTPException 500 ("An error occurred: " ++ exn_str e))
     end, st').
Proof.
  intro H. run H.
  destruct (to_response validate_int validate_str row) as [p|e] eqn:Hrow;
    [reflexivity|].
  now rewrite (to_response_raises _ _ _ _ Hrow).
Qed.

Lemma delete_prescription_rows (i : Z) (st st' : S) (row : json)
    (rest : list json) :
  execute (deleting i) st = (Data (row :: rest), st') ->
  del i st = (Return message, st').
Proof. intro H. now run H. Qed.

Lemma delete_prescription_no_rows (i : Z) (st st' : S) :
  execute (deleting i) st = (Data [], st') ->
  del i st
  = (Raise (HTTPException 500
              ("An error occurred: "
               ++ exn_str (HTTPException 404 "Prescription not found"))),
     st').
Proof. intro H. now run H. Qed.

Lemma served_run {A : Type} (encode : A -> json) (c : M S A) (st : S) :
  served S encode c st = (respond encode (fst (c st)), snd (c st)).
Proof. unfold served. now destruct (c st). Qed.





Lemma delete_prescription_returns (i : Z) (st st' : S) (v : json) :
  del i st = (Return v, st') -> v = message.
Proof.
  destruct (execute (deleting i) st) as [[[|row rest]|m] st''] eqn:H.
  - rewrite (delete_prescription_no_rows _ _ _ H). discriminate.
  - rewrite (delete_prescription_rows _ _ _ _ _ H). now intros [= <- _].
  - run H. discriminate.
Qed.

(** C2 (as the code has it): when the store reports no rows for the delete,
    the 404 that [delete_prescription] raises is caught by its own
    [except Exception] and leaves the handler as a 500. *)
Theorem delete_prescription_absent (i : Z) (st st' : S) :
  execute (deleting i) st = (Data [], st') ->
  del i st
  = (Raise (HTTPException 500
              ("An error occurred: "
               ++ exn_str (HTTPException 404 "Prescription not found"))),
     st')
  /\ status (fst (remove_prescription exn_str execute i st)) = 500.
Proof.
  intro H. pose proof (delete_prescription_no_rows _ _ _ H) as Hd.
  split; [exact Hd|].
  unfold remove_prescription. rewrite served_run. now rewrite Hd.
Qed.

(** C7: when the store hands back no data for the insert,
    [create_prescription] raises an [HTTPException] of status 500 and
    returns no record. *)
Theorem create_prescription_no_data (f : FormData) (st st' : S) :
  execute (creating f) st = (Data [], st') ->
  create f st
  = (Raise (HTTPException 500
              ("An error occurred: "
               ++ exn_str (HTTPException 500 "Failed to store prescription"))),
     st')
  /\ status (respond encode_prescription (fst (create f st))) = 500
  /\ forall p, fst (create f st) <> Return p.
Proof.
  intro H. rewrite (create_prescription_no_rows _ _ _ H).
  repeat split. intros p. discriminate.
Qed.

(** C9: when the select of [get_prescription] hands back more than one row,
    the answer is built from the first row alone; the rows after it play no
    part. *)
Theorem get_prescription_first_row (i : Z) (st st' : S) (row : json)
    (rest : list json) :
  execute (reading i) st = (Data (row :: rest), st') ->
  get i st
  = (match to_response validate_int validate_str row with
     | Return p => Return p
     | Raise e => Raise (HTTPException 500 ("An error occurred: " ++ exn_str e))
     end, st')
  /\ forall p, to_response validate_int validate_str row = Return p ->
               get i st = (Return p, st').
Proof.
  intro H. pose proof (get_prescription_row _ _ _ _ _ H) as Hg.
  split; [exact Hg|]. intros p Hp. now rewrite Hg, Hp.
Qed.

(** C10: a delete for which the store reports rows, however many and
    whatever they hold, returns the constant body
    [{"message": "Prescription deleted successfully"}]; and nothing else is
    ever returned by [delete_prescription]. *)
Theorem delete_prescription_message (i : Z) (st st' : S) (row : json)
    (rest : list json) :
  execute (deleting i) st = (Data (row :: rest), st') ->
  del i st = (Return message, st')
  /\ remove_prescription exn_str execute i st = (OK message, st')
  /\ forall s s' v, del i s = (Return v, s') -> v = message.
Proof.
  intro H. pose proof (delete_prescription_rows _ _ _ _ _ H) as Hd.
  split; [exact Hd|]. split.
  - unfold remove_prescription. rewrite served_run. now rewrite Hd.
  - intros s s' v. apply delete_prescription_returns.
Qed.

(** A filter value of 0 is falsy in [if drid:], so the request goes out
    without the filter, as if no doctor id had been supplied. *)
Lemma get_prescriptions_zero (st : S) : list_ (Some 0) st = list_ None st.
Proof. reflexivity. Qed.

End Gateway.

(** ** The table store *)

Lemma matches_one (f : string * json) (row : dict) :
  Table.matches [f] row = Table.satisfies row f.
Proof. unfold Table.matches. cbn. apply andb_true_r. Qed.

Lemma execute_creating (f : FormData) (st : Table.store) :
  Table.execute (creating f) st
  = (Data [JDict (stored (Table.next_id st) f)],
     Table.mkStore (Table.rows st ++ [stored (Table.next_id st) f])
       (Table.next_id st + 1)).
Proof. reflexivity. Qed.

Lemma execute_reading (i : Z) (st : Table.store) :
  Table.execute (reading i) st
  = (Data (map JDict (filter (Table.has_id i) (Table.rows st))), st).
Proof.
  unfold Table.execute, reading.
  cbn [Table.table_of Table.verb_of Table.filters_of].
  change ("prescriptions" =? "prescriptions")%string with true. cbv iota.
  now rewrite (filter_ext _ _ (matches_one ("id", JInt i))).
Qed.

Lemma execute_deleting (i : Z) (st : Table.store) :
  Table.execute (deleting i) st
  = (Data (map JDict (filter (Table.has_id i) (Table.rows st))),
     Table.mkStore
       (filter (fun r => negb (Table.has_id i r)) (Table.rows st))
       (Table.next_id st)).
Proof.
  unfold Table.execute, deleting.
  cbn [Table.table_of Table.verb_of Table.filters_of].
  change ("prescriptions" =? "prescriptions")%string with true. cbv iota.
  rewrite (filter_ext _ _ (matches_one ("id", JInt i))).
  do 2 f_equal. apply filter_ext. intro r. now rewrite matches_one.
Qed.

Lemma has_id_stored (i j : Z) (f : FormData) :
  Table.has_id i (stored j f) = (j =? i).
Proof. reflexivity. Qed.

Lemma below_has_id (n : Z) (row : dict) :
  Table.below n row = true -> Table.has_id n row = false.
Proof.
  unfold Table.below, Table.has_id, Table.satisfies. cbn [fst snd].
  destruct (dict_get "id" row) as [[| |i| | |]|]; try discriminate.
  cbn. intros H%Z.ltb_lt. apply Z.eqb_neq. lia.
Qed.

Lemma below_mono (n m : Z) (row : dict) :
  n <= m -> Table.below n row = true -> Table.below m row = true.
Proof.
  unfold Table.below.
  destruct (dict_get "id" row) as [[| |i| | |]|]; try discriminate.
  intros Hnm H%Z.ltb_lt. apply Z.ltb_lt. lia.
Qed.

Lemma fresh_ids_none (st : Table.store) :
  Table.fresh_ids st = true ->
  filter (Table.has_id (Table.next_id st)) (Table.rows st) = [].
Proof.
  unfold Table.fresh_ids. generalize (Table.next_id st) as n.
  intro n. induction (Table.rows st) as [|row rows IH]; [reflexivity|].
  cbn. intros [Hrow Hrows]%andb_true_iff.
  now rewrite (below_has_id _ _ Hrow), IH.
Qed.

Lemma filter_none_after {A : Type} (p : A -> bool) (xs : list A) :
  filter p (filter (fun x => negb (p x)) xs) = [].
Proof.
  induction xs as [|x xs IH]; [reflexivity|].
  cbn. destruct (p x) eqn:Hp; cbn; [exact IH|]. now rewrite Hp.
Qed.

Lemma filter_none_absent {A : Type} (p : A -> bool) (xs : list A) :
  existsb p xs = false -> filter p xs = [].
Proof.
  induction xs as [|x xs IH]; [reflexivity|].
  cbn. intros [Hx Hxs]%orb_false_iff. now rewrite Hx, IH.
Qed.

(** The empty table has fresh ids, and every request keeps them fresh:
    [fresh_ids] holds of every table the handlers can reach. *)
Lemma fresh_ids_empty : Table.fresh_ids Table.empty = true.
Proof. reflexivity. Qed.

Lemma forallb_filter {A : Type} (p q : A -> bool) (xs : list A) :
  forallb p xs = true -> forallb p (filter q xs) = true.
Proof.
  induction xs as [|x xs IH]; [reflexivity|].
  cbn. intros [Hx Hxs]%andb_true_iff.
  destruct (q x); cbn; rewrite ?Hx; auto.
Qed.

Lemma fresh_ids_execute (q : request) (st : Table.store) :
  Table.fresh_ids st = true ->
  Table.fresh_ids (snd (Table.execute q st)) = true.
Proof.
  intro H. unfold Table.execute.
  destruct (Table.verb_of q) as [[|row|]|]; [| | |exact H];
    (destruct (String.eqb (Table.table_of q) "prescriptions"); [|exact H]);
    [exact H| |].
  - destruct row; try exact H.
    unfold Table.fresh_ids in *. cbn [snd Table.rows Table.next_id].
    rewrite forallb_app. apply andb_true_iff. split.
    + rewrite forallb_forall in *. intros r Hr.
      apply (below_mono (Table.next_id st)); [lia|auto].
    + cbn. unfold Table.below. cbn. rewrite andb_true_r.
      apply Z.ltb_lt. lia.
  - unfold Table.fresh_ids in *. cbn [snd Table.rows Table.next_id].
    now apply forallb_filter.
Qed.

Lemma fresh_ids_reached (qs : list request) :
  Table.fresh_ids
    (fold_left (fun st q => snd (Table.execute q st)) qs Table.empty) = true.
Proof.
  pose proof fresh_ids_empty as H. revert H.
  generalize Table.empty as st.
  induction qs as [|q qs IH]; intros st H; [exact H|].
  cbn [fold_left]. apply IH. now apply fresh_ids_execute.
Qed.

(** ** Sequences of requests on the table store *)

Section Journeys.

Variable validate_int : json -> option Z.
Variable validate_str : json -> option string.
Variable exn_str : exn -> string.

Hypothesis validate_int_ok : forall n, validate_int (JInt n) = Some n.
Hypothesis validate_str_ok : forall s, validate_str (JStr s) = Some s.

Local Abbreviation create :=
  (create_prescription validate_int validate_str exn_str Table.execute).
Local Abbreviation list_ :=
  (get_prescriptions validate_int validate_str exn_str Table.execute).
Local Abbreviation get :=
  (get_prescription validate_int validate_str exn_str Table.execute).
Local Abbreviation del := (delete_prescription exn_str Table.execute).

Lemma create_on_table (f : FormData) (st : Table.store) :
  create f st
  = (Return (with_id (Table.next_id st) f),
     Table.mkStore (Table.rows st ++ [stored (Table.next_id st) f])
       (Table.next_id st + 1)).
Proof.
  rewrite (create_prescription_row _ _ _ _ _ _ _ _ _ _ (execute_creating f st)).
  now rewrite (to_response_stored _ _ validate_int_ok validate_str_ok).
Qed.

Lemma get_absent_on_table (i : Z) (st : Table.store) :
  filter (Table.has_id i) (Table.rows st) = [] ->
  get i st = (Raise (HTTPException 404 "Prescription not found"), st).
Proof.
  intro H. apply get_prescription_no_rows.
  now rewrite execute_reading, H.
Qed.

(** C1: on a table with fresh ids, [create_prescription] returns the payload
    under the id the table assigned, and [get_prescription] at that id
    returns the same record: every field of the payload, medicines
    included, is echoed unchanged. *)
Theorem create_then_get (f : FormData) (st : Table.store) :
  Table.fresh_ids st = true ->
  exists (p : PrescriptionResponse) (st' : Table.store),
    create f st = (Return p, st')
    /\ p = with_id (Table.next_id st) f
    /\ get (id p) st' = (Return p, st').
Proof.
  intro Hfresh.
  eexists. eexists. split; [apply create_on_table|]. split; [reflexivity|].
  cbn [id with_id].
  set (n := Table.next_id st). set (row := stored n f).
  assert (Hread : Table.execute (reading n)
                    (Table.mkStore (Table.rows st ++ [row]) (n + 1))
                  = (Data [JDict row],
                     Table.mkStore (Table.rows st ++ [row]) (n + 1))).
  { pose proof (fresh_ids_none st Hfresh) as Hnone. fold n in Hnone.
    rewrite execute_reading. cbn [Table.rows].
    rewrite filter_app, Hnone. cbn [filter app].
    unfold row. now rewrite has_id_stored, Z.eqb_refl. }
  rewrite (get_prescription_row _ _ _ _ _ _ _ _ _ _ Hread).
  unfold row. now rewrite (to_response_stored _ _ validate_int_ok validate_str_ok).
Qed.

(** C4: [get_prescription] at an id the table does not hold, whether it
    never held it or [delete_prescription] has just removed it, raises
    [HTTPException(404)], and the client is answered 404. *)
Theorem get_prescription_absent (i : Z) (st : Table.store) :
  existsb (Table.has_id i) (Table.rows st) = false
  \/ (exists st0, st = snd (del i st0)) ->
  get i st = (Raise (HTTPException 404 "Prescription not found"), st)
  /\ read_prescription validate_int validate_str exn_str Table.execute i st
     = (HTTPError 404 "Prescription not found", st).
Proof.
  intro H.
  assert (Hnone : filter (Table.has_id i) (Table.rows st) = []).
  { destruct H as [H|[st0 ->]]; [now apply filter_none_absent|].
    pose proof (execute_deleting i st0) as Hd.
    destruct (filter (Table.has_id i) (Table.rows st0)) as [|row rest].
    - rewrite (delete_prescription_no_rows exn_str Table.store Table.execute
                 i st0 _ Hd).
      cbn [snd Table.rows]. apply filter_none_after.
    - rewrite (delete_prescription_rows exn_str Table.store Table.execute
                 i st0 _ _ _ Hd).
      cbn [snd Table.rows]. apply filter_none_after. }
  pose proof (get_absent_on_table i st Hnone) as Hg.
  split; [exact Hg|].
  unfold read_prescription. rewrite served_run. now rewrite Hg.
Qed.

End Journeys.

(** ** Requests that do not bind *)

Section Routes.

Variable validate_int : json -> option Z.
Variable validate_str : json -> option string.
Variable exn_str : exn -> string.
Variable S : Type.
Variable execute : request -> S -> executed * S.

Local Abbreviation validate := (FormData_validate validate_int validate_str).
Local Abbreviation errors := (FormData_errors validate_int validate_str).
Local Abbreviation post :=
  (post_prescriptions validate_int validate_str exn_str execute).







End Routes.

(** ** Listing *)

Lemma listing_names_no_verb (drid : option Z) :
  names_verb (listing drid) = false.
Proof.
  unfold listing. destruct drid as [n|]; [destruct (truthy (Some n))|];
    reflexivity.
Qed.

Lemma verb_of_none (q : request) :
  names_verb q = false -> Table.verb_of q = None.
Proof. induction q; cbn; auto; discriminate. Qed.

Lemma Table_refuses : refuses Table.execute.
Proof.
  intros q st H. exists (Table.refusal q).
  unfold Table.execute. now rewrite (verb_of_none q H).
Qed.

Section Listing.

Variable validate_int : json -> option Z.
Variable validate_str : json -> option string.
Variable exn_str : exn -> string.
Variable S : Type.
Variable execute : request -> S -> executed * S.

Local Abbreviation list_ :=
  (get_prescriptions validate_int validate_str exn_str execute).
Local Abbreviation answer :=
  (list_prescriptions validate_int validate_str exn_str execute).

(** The request of [get_prescriptions] names no verb: a client that refuses
    such requests raises, and the handler wraps what it raises. *)
Lemma get_prescriptions_refused (drid : option Z) (st : S) :
  refuses execute ->
  exists m,
    execute (listing drid) st = (Failed m, st)
    /\ list_ drid st
       = (Raise (HTTPException 500
                   ("An error occurred: " ++ exn_str (StoreError m))), st).
Proof.
  intro H. destruct (H (listing drid) st (listing_names_no_verb drid))
    as [m Hm].
  exists m. split; [exact Hm|]. now rewrite get_prescriptions_sends, Hm.
Qed.

(** C3 (as the code has it): [get_prescriptions] builds its request on
    [supabase.table(...)] and names no verb, so on a client that refuses
    such requests no call, with a doctor id or without, returns a list:
    every call is answered 500 and the store is not read.  A doctor id of 0
    is moreover falsy in [if drid:] and asks for the same request as no
    doctor id at all. *)
Theorem get_prescriptions_never_lists (drid : option Z) (st : S) :
  refuses execute ->
  (forall ps st', list_ drid st <> (Return ps, st'))
  /\ status (fst (answer drid st)) = 500
  /\ snd (list_ drid st) = st
  /\ list_ (Some 0) st = list_ None st.
Proof.
  intro H. destruct (get_prescriptions_refused drid st H) as [m [_ Hl]].
  split; [|split; [|split]].
  - intros ps st'. rewrite Hl. discriminate.
  - unfold list_prescriptions. rewrite served_run. now rewrite Hl.
  - now rewrite Hl.
  - apply get_prescriptions_zero.
Qed.

(** C6 (as the code has it): on a client that refuses a request that names
    no verb, a list call that no record matches is answered 500 with the
    client's exception wrapped, like every list call, and never with the
    empty sequence: the branch [return []] is not reached. *)
Theorem get_prescriptions_no_match_is_500 (drid : option Z) (st : S) :
  refuses execute ->
  exists m,
    execute (listing drid) st = (Failed m, st)
    /\ list_ drid st
       = (Raise (HTTPException 500
                   ("An error occurred: " ++ exn_str (StoreError m))), st)
    /\ answer drid st
       = (HTTPError 500 ("An error occurred: " ++ exn_str (StoreError m)), st)
    /\ answer drid st <> (OK (JList []), st).
Proof.
  intro H. destruct (get_prescriptions_refused drid st H) as [m [Hm Hl]].
  exists m. split; [exact Hm|]. split; [exact Hl|].
  assert (Ha : answer drid st
               = (HTTPError 500
                    ("An error occurred: " ++ exn_str (StoreError m)), st)).
  { unfold list_prescriptions. rewrite served_run. now rewrite Hl. }
  split; [exact Ha|]. rewrite Ha. discriminate.
Qed.

End Listing.

(** ** The handlers at work *)

Lemma create_then_get_witness :
  Table.fresh_ids with_jane = true
  /\ exists (p : PrescriptionResponse) (st' : Table.store),
       create_prescription strict_int strict_str message_of Table.execute
         john with_jane = (Return p, st')
       /\ p = with_id (Table.next_id with_jane) john
       /\ get_prescription strict_int strict_str message_of Table.execute
            (id p) st' = (Return p, st').
Proof.
  split; [reflexivity|].
  apply (create_then_get strict_int strict_str message_of);
    try (intros; reflexivity).
Defined.

Lemma delete_prescription_absent_witness :
  Table.execute (deleting 1) Table.empty = (Data [], Table.empty)
  /\ delete_prescription message_of Table.execute 1 Table.empty
     = (Raise (HTTPException 500 "An error occurred: Prescription not found"),
        Table.empty)
  /\ status (fst (remove_prescription message_of Table.execute 1 Table.empty))
     = 500.
Proof.
  split; [reflexivity|].
  apply (delete_prescription_absent message_of Table.store Table.execute
           1 Table.empty Table.empty).
  reflexivity.
Defined.

Lemma get_prescription_absent_witness :
  let st := snd (delete_prescription message_of Table.execute 1 with_both) in
  get_prescription strict_int strict_str message_of Table.execute 1 st
  = (Raise (HTTPException 404 "Prescription not found"), st)
  /\ read_prescription strict_int strict_str message_of Table.execute 1 st
     = (HTTPError 404 "Prescription not found", st).
Proof.
  apply (get_prescription_absent strict_int strict_str message_of 1).
  right. exists with_both. reflexivity.
Defined.

Lemma create_prescription_no_data_witness :
  silent (creating jane) tt = (Data [], tt)
  /\ create_prescription strict_int strict_str message_of silent jane tt
     = (Raise (HTTPException 500
                 "An error occurred: Failed to store prescription"), tt)
  /\ status (respond encode_prescription
               (fst (create_prescription strict_int strict_str message_of
                       silent jane tt))) = 500
  /\ forall p,
       fst (create_prescription strict_int strict_str message_of silent
              jane tt) <> Return p.
Proof.
  split; [reflexivity|].
  apply (create_prescription_no_data strict_int strict_str message_of
           unit silent jane tt tt).
  reflexivity.
Defined.

Lemma get_prescription_first_row_witness :
  Table.execute (reading 1) twice
  = (Data [JDict (stored 1 jane); JDict (stored 1 john)], twice)
  /\ get_prescription strict_int strict_str message_of Table.execute 1 twice
     = (Return (with_id 1 jane), twice).
Proof.
  split; [reflexivity|].
  destruct (get_prescription_first_row strict_int strict_str message_of
              Table.store Table.execute 1 twice twice
              (JDict (stored 1 jane)) [JDict (stored 1 john)] eq_refl)
    as [_ Hfirst].
  apply Hfirst. reflexivity.
Defined.

Lemma delete_prescription_message_witness :
  Table.execute (deleting 1) twice
  = (Data [JDict (stored 1 jane); JDict (stored 1 john)], Table.mkStore [] 2)
  /\ delete_prescription message_of Table.execute 1 twice
     = (Return message, Table.mkStore [] 2)
  /\ remove_prescription message_of Table.execute 1 twice
     = (OK message, Table.mkStore [] 2).
Proof.
  split; [reflexivity|].
  destruct (delete_prescription_message message_of Table.store Table.execute
              1 twice (Table.mkStore [] 2)
              (JDict (stored 1 jane)) [JDict (stored 1 john)] eq_refl)
    as [Hd [Hr _]].
  split; [exact Hd | exact Hr].
Defined.

Lemma get_prescriptions_never_lists_witness :
  get_prescriptions strict_int strict_str message_of Table.execute
    (Some 1) with_both
  = (Raise (HTTPException 500
              "An error occurred: 'SyncRequestBuilder' object has no attribute 'eq'"),
     with_both)
  /\ (forall ps st',
         get_prescriptions strict_int strict_str message_of Table.execute
           (Some 1) with_both <> (Return ps, st'))
  /\ status (fst (list_prescriptions strict_int strict_str message_of
                    Table.execute (Some 1) with_both)) = 500.
Proof.
  split; [reflexivity|].
  destruct (get_prescriptions_never_lists strict_int strict_str message_of
              Table.store Table.execute (Some 1) with_both Table_refuses)
    as [Hnever [Hstatus _]].
  split; [exact Hnever | exact Hstatus].
Defined.

Lemma get_prescriptions_no_match_is_500_witness :
  get_prescriptions strict_int strict_str message_of Table.execute
    None Table.empty
  = (Raise (HTTPException 500
              "An error occurred: 'SyncRequestBuilder' object has no attribute 'execute'"),
     Table.empty)
  /\ list_prescriptions strict_int strict_str message_of Table.execute
       None Table.empty <> (OK (JList []), Table.empty).
Proof.
  split; [reflexivity|].
  destruct (get_prescriptions_no_match_is_500 strict_int strict_str
              message_of Table.store Table.execute None Table.empty
              Table_refuses)
    as [m [_ [_ [_ Hnot]]]].
  exact Hnot.
Defined.



(** * Further properties of the handlers *)

(** ** Start-up *)

Lemma unset_false (v : option string) :
  unset v = false <-> exists s, v = Some s /\ s <> "".
Proof.
  destruct v as [s|]; cbn.
  - rewrite String.eqb_neq. split; [eauto|]. now intros [s' [[= <-] H]].
  - split; [discriminate|]. now intros [s [H _]].
Qed.

(** X1: the module loads, with the two values handed to [create_client],
    exactly when SUPABASE_URL and SUPABASE_KEY are both set and neither is
    the empty string; otherwise it stops on the [ValueError]. *)
Theorem credentials_present (getenv : string -> option string)
    (url key : string) :
  credentials getenv = inr (url, key)
  <-> getenv "SUPABASE_URL" = Some url /\ getenv "SUPABASE_KEY" = Some key
      /\ url <> "" /\ key <> "".
Proof.
  unfold credentials.
  destruct (unset (getenv "SUPABASE_URL")) eqn:Hu;
    destruct (unset (getenv "SUPABASE_KEY")) eqn:Hk; cbn [orb].
  4: { apply unset_false in Hu as [u [Hu Hu']].
       apply unset_false in Hk as [k [Hk Hk']]. rewrite Hu, Hk.
       split.
       - now intros [= <- <-].
       - now intros [[= <-] [[= <-] _]]. }
  all: split; [discriminate|]; intros [H1 [H2 [H3 H4]]].
  all: rewrite H1 in Hu; rewrite H2 in Hk; cbn in Hu, Hk.
  all: try (apply String.eqb_eq in Hu; contradiction).
  all: apply String.eqb_eq in Hk; contradiction.
Qed.

Lemma credentials_present_witness :
  credentials dotenv = inr ("https://db.example", "secret")
  /\ credentials dotenv_empty_key
     = inl "Missing Supabase credentials. Set SUPABASE_URL and SUPABASE_KEY in .env file".
Proof.
  split; [|reflexivity].
  apply (credentials_present dotenv "https://db.example" "secret").
  repeat split; discriminate.
Defined.

(** ** Reading a row *)

Section Rows.

Variable validate_int : json -> option Z.
Variable validate_str : json -> option string.

Local Abbreviation to_response' := (to_response validate_int validate_str).

Lemma field_agree {A : Type} (validate : json -> option A) (key : string)
    (d d' : dict) (a : A) :
  dict_get key d = dict_get key d' ->
  field validate key d = inl a ->
  field validate key d' = inl a.
Proof.
  unfold field. intros <-.
  destruct (dict_get key d) as [v|]; [|discriminate].
  destruct (validate v); [now intros [= <-] | discriminate].
Qed.

Lemma to_response_agree (d d' : dict) (p : PrescriptionResponse) :
  (forall key, In key response_fields -> dict_get key d = dict_get key d') ->
  to_response' (JDict d) = Return p ->
  to_response' (JDict d') = Return p.
Proof.
  intro H. unfold to_response, getitem.
  rewrite <- (H "medicines") by (cbn; tauto).
  destruct (dict_get "medicines" d) as [raw|]; [|discriminate].
  cbn [res_bind].
  destruct (iterate raw) as [meds|e]; [|discriminate]. cbn [res_bind].
  destruct (res_map (Medicine_init validate_str) meds) as [ms|e];
    [|discriminate]. cbn [res_bind].
  unfold PrescriptionResponse_init.
  destruct (field validate_int "id" d) eqn:H1; [|discriminate].
  destruct (field validate_int "drid" d) eqn:H2; [|discriminate].
  destruct (field validate_str "sendToValue" d) eqn:H3; [|discriminate].
  destruct (field validate_str "patientName" d) eqn:H4; [|discriminate].
  destruct (field validate_str "patientAge" d) eqn:H5; [|discriminate].
  destruct (field validate_str "patientDescription" d) eqn:H6;
    [|discriminate].
  destruct (field validate_str "currentDate" d) eqn:H7; [|discriminate].
  rewrite (field_agree _ _ d d' _ (H "id" ltac:(cbn; tauto)) H1).
  rewrite (field_agree _ _ d d' _ (H "drid" ltac:(cbn; tauto)) H2).
  rewrite (field_agree _ _ d d' _ (H "sendToValue" ltac:(cbn; tauto)) H3).
  rewrite (field_agree _ _ d d' _ (H "patientName" ltac:(cbn; tauto)) H4).
  rewrite (field_agree _ _ d d' _ (H "patientAge" ltac:(cbn; tauto)) H5).
  rewrite (field_agree _ _ d d' _ (H "patientDescription" ltac:(cbn; tauto)) H6).
  rewrite (field_agree _ _ d d' _ (H "currentDate" ltac:(cbn; tauto)) H7).
  auto.
Qed.

(** X2: whether a row reads as a prescription, and as which, depends only
    on the eight columns the model names: of two rows that agree on them,
    whatever their other columns and whatever the order of their columns,
    one reads as a record exactly when the other reads as the same
    record. *)
Theorem to_response_reads_fields (d d' : dict) (p : PrescriptionResponse) :
  (forall key, In key response_fields -> dict_get key d = dict_get key d') ->
  to_response' (JDict d) = Return p <-> to_response' (JDict d') = Return p.
Proof.
  intro H. split; apply to_response_agree; [exact H|].
  intros key Hkey. symmetry. now apply H.
Qed.

(** X3: the list comprehension over [row["medicines"]] iterates whatever is
    there: an empty string or an empty object yields no medicine, and the
    row is read as a prescription without medicines; [null], a number or a
    boolean cannot be iterated and the row raises a [TypeError]; an absent
    column raises a [KeyError]. *)
Theorem to_response_medicines_shapes (d : dict) :
  (forall v, dict_get "medicines" d = Some v ->
             v = JStr "" \/ v = JDict [] \/ v = JList [] ->
             to_response' (JDict d)
             = PrescriptionResponse_init validate_int validate_str d [])
  /\ (forall v, dict_get "medicines" d = Some v ->
                v = JNull \/ (exists n, v = JInt n) \/ (exists b, v = JBool b) ->
                to_response' (JDict d) = Raise (TypeError v))
  /\ (dict_get "medicines" d = None ->
      to_response' (JDict d) = Raise (KeyError "medicines")).
Proof.
  unfold to_response, getitem. repeat split.
  - intros v -> [->|[->| ->]]; reflexivity.
  - intros v -> [->|[[n ->]|[b ->]]]; reflexivity.
  - now intros ->.
Qed.

End Rows.

Lemma to_response_reads_fields_witness :
  to_response strict_int strict_str
    (JDict (("created_at", JStr "2024-01-01T10:00:00") :: rev (stored 1 jane)))
  = Return (with_id 1 jane).
Proof.
  apply (to_response_reads_fields strict_int strict_str (stored 1 jane)).
  - intros key H. cbn in H.
    repeat (destruct H as [<-|H]; [reflexivity|]). contradiction.
  - reflexivity.
Defined.

Lemma to_response_medicines_shapes_witness :
  to_response strict_int strict_str
    (JDict (dict_set "medicines" (JStr "") (stored 1 jane)))
  = Return (with_id 1 (mkFormData 1 "pharmacy" "Jane Doe" "34" "flu"
                         "2024-01-01" []))
  /\ to_response strict_int strict_str
       (JDict (dict_set "medicines" JNull (stored 1 jane)))
     = Raise (TypeError JNull)
  /\ to_response strict_int strict_str (JDict [("id", JInt 2)])
     = Raise (KeyError "medicines").
Proof.
  destruct (to_response_medicines_shapes strict_int strict_str
              (dict_set "medicines" (JStr "") (stored 1 jane)))
    as [Hempty _].
  destruct (to_response_medicines_shapes strict_int strict_str
              (dict_set "medicines" JNull (stored 1 jane)))
    as [_ [Hnull _]].
  destruct (to_response_medicines_shapes strict_int strict_str
              [("id", JInt 2)])
    as [_ [_ Hmissing]].
  split; [|split].
  - rewrite (Hempty (JStr "") eq_refl (or_introl eq_refl)). reflexivity.
  - apply (Hnull JNull eq_refl (or_introl eq_refl)).
  - apply (Hmissing eq_refl).
Defined.

(** ** The handlers over any store, continued *)

Section Answers.

Variable validate_int : json -> option Z.
Variable validate_str : json -> option string.
Variable exn_str : exn -> string.
Variable S : Type.
Variable execute : request -> S -> executed * S.

Local Abbreviation create :=
  (create_prescription validate_int validate_str exn_str execute).
Local Abbreviation list_ :=
  (get_prescriptions validate_int validate_str exn_str execute).
Local Abbreviation get :=
  (get_prescription validate_int validate_str exn_str execute).
Local Abbreviation del := (delete_prescription exn_str execute).
Local Abbreviation parse := (to_response validate_int validate_str).

(** The 500 that [except Exception as e] turns [e] into. *)
Local Abbreviation wrapped e :=
  (HTTPException 500 ("An error occurred: " ++ exn_str e)).

Ltac failing H :=
  unfold create_prescription, get_prescription, delete_prescription,
    try_except, bind, execute_data, except_Exception, raise;
  try rewrite dict_set_medicines;
  first [ rewrite H
        | unfold creating, reading, deleting in H; rewrite H ];
  reflexivity.

Lemma create_prescription_failed (f : FormData) (st st' : S) (m : string) :
  execute (creating f) st = (Failed m, st') ->
  create f st = (Raise (wrapped (StoreError m)), st').
Proof. intro H. failing H. Qed.


Lemma get_prescription_failed (i : Z) (st st' : S) (m : string) :
  execute (reading i) st = (Failed m, st') ->
  get i st = (Raise (wrapped (StoreError m)), st').
Proof. intro H. failing H. Qed.

Lemma delete_prescription_failed (i : Z) (st st' : S) (m : string) :
  execute (deleting i) st = (Failed m, st') ->
  del i st = (Raise (wrapped (StoreError m)), st').
Proof. intro H. failing H. Qed.


Lemma create_prescription_state (f : FormData) (st : S) :
  snd (create f st) = snd (execute (creating f) st).
Proof.
  destruct (execute (creating f) st) as [[[|row rest]|m] st'] eqn:H.
  - now rewrite (create_prescription_no_rows _ _ _ _ _ _ _ _ H).
  - now rewrite (create_prescription_row _ _ _ _ _ _ _ _ _ _ H).
  - now rewrite (create_prescription_failed _ _ _ _ H).
Qed.

Lemma get_prescriptions_state (drid : option Z) (st : S) :
  snd (list_ drid st) = snd (execute (listing drid) st).
Proof.
  rewrite get_prescriptions_sends.
  now destruct (execute (listing drid) st) as [[[|row rest]|m] st'].
Qed.

Lemma get_prescription_state (i : Z) (st : S) :
  snd (get i st) = snd (execute (reading i) st).
Proof.
  destruct (execute (reading i) st) as [[[|row rest]|m] st'] eqn:H.
  - now rewrite (get_prescription_no_rows _ _ _ _ _ _ _ _ H).
  - now rewrite (get_prescription_row _ _ _ _ _ _ _ _ _ _ H).
  - now rewrite (get_prescription_failed _ _ _ _ H).
Qed.

Lemma delete_prescription_state (i : Z) (st : S) :
  snd (del i st) = snd (execute (deleting i) st).
Proof.
  destruct (execute (deleting i) st) as [[[|row rest]|m] st'] eqn:H.
  - now rewrite (delete_prescription_no_rows _ _ _ _ _ _ H).
  - now rewrite (delete_prescription_rows _ _ _ _ _ _ _ _ H).
  - now rewrite (delete_prescription_failed _ _ _ _ H).
Qed.

(** What [get_prescription] answers is decided by the result of its one
    request. *)
Lemma get_prescription_of_data (i : Z) (st st' : S) (rows : list json) :
  execute (reading i) st = (Data rows, st') ->
  fst (get i st)
  = match rows with
    | [] => Raise (HTTPException 404 "Prescription not found")
    | row :: _ =>
        match parse row with
        | Return p => Return p
        | Raise e => Raise (wrapped e)
        end
    end.
Proof.
  intro H. destruct rows as [|row rest].
  - now rewrite (get_prescription_no_rows _ _ _ _ _ _ _ _ H).
  - now rewrite (get_prescription_row _ _ _ _ _ _ _ _ _ _ H).
Qed.

(** X6: what [create_prescription] returns is read from the first row the
    store hands back, not from the payload: the record of that row when it
    reads as one, a 500 carrying the row's exception when it does not. *)
Theorem create_prescription_echoes_store (f : FormData) (st st' : S)
    (row : json) (rest : list json) :
  execute (creating f) st = (Data (row :: rest), st') ->
  (forall p, parse row = Return p -> create f st = (Return p, st'))
  /\ (forall e, parse row = Raise e ->
                create f st = (Raise (wrapped e), st')).
Proof.
  intro H. pose proof (create_prescription_row validate_int validate_str
                         exn_str S execute f st st' row rest H) as Hc.
  split; [intros p Hp | intros e He]; now rewrite Hc, ?Hp, ?He.
Qed.

(** X7: a row that is found but does not read as a prescription makes
    [get_prescription] answer 500, never 404: the exception of the row is
    not an [HTTPException] and goes through [except Exception]. *)
Theorem get_prescription_bad_row (i : Z) (st st' : S) (row : json)
    (rest : list json) (e : exn) :
  execute (reading i) st = (Data (row :: rest), st') ->
  parse row = Raise e ->
  get i st = (Raise (wrapped e), st')
  /\ status (fst (read_prescription validate_int validate_str exn_str
                    execute i st)) = 500.
Proof.
  intros H He.
  pose proof (get_prescription_row validate_int validate_str exn_str S
                execute i st st' row rest H) as Hg.
  rewrite He in Hg. split; [exact Hg|].
  unfold read_prescription. rewrite served_run. now rewrite Hg.
Qed.

End Answers.

Section Log.

Variable validate_int : json -> option Z.
Variable validate_str : json -> option string.
Variable exn_str : exn -> string.
Variable S : Type.
Variable execute : request -> S -> executed * S.

Lemma logged_log (q : request) (st : S) (log : list request) :
  snd (snd (logged execute q (st, log))) = (log ++ [q])%list.
Proof. unfold logged. cbn [fst snd]. now destruct (execute q st). Qed.

(** X5: [create_prescription], [get_prescription] and
    [delete_prescription] each call the client exactly once, with the insert
    of the payload, the select by id and the delete by id: a client that
    keeps a record of what it is sent has that one request more on record
    once the handler is done, whether the handler returns or raises. *)
Theorem one_request_each (f : FormData) (i : Z) (st : S)
    (log : list request) :
  snd (snd (create_prescription validate_int validate_str exn_str
              (logged execute) f (st, log)))
  = (log ++ [creating f])%list
  /\ snd (snd (get_prescription validate_int validate_str exn_str
                 (logged execute) i (st, log)))
     = (log ++ [reading i])%list
  /\ snd (snd (delete_prescription exn_str (logged execute) i (st, log)))
     = (log ++ [deleting i])%list.
Proof.
  repeat split.
  - rewrite create_prescription_state. apply logged_log.
  - rewrite get_prescription_state. apply logged_log.
  - rewrite delete_prescription_state. apply logged_log.
Qed.

End Log.


Lemma create_prescription_echoes_store_witness :
  canned [JDict (stored 9 john)] (creating jane) tt
  = (Data [JDict (stored 9 john)], tt)
  /\ create_prescription strict_int strict_str message_of
       (canned [JDict (stored 9 john)]) jane tt
     = (Return (with_id 9 john), tt).
Proof.
  split; [reflexivity|].
  destruct (create_prescription_echoes_store strict_int strict_str message_of
              unit (canned [JDict (stored 9 john)]) jane tt tt
              (JDict (stored 9 john)) [] eq_refl) as [Hreturn _].
  apply Hreturn. reflexivity.
Defined.

Lemma get_prescription_bad_row_witness :
  Table.execute (reading 2) spoiled = (Data [JDict [("id", JInt 2)]], spoiled)
  /\ to_response strict_int strict_str (JDict [("id", JInt 2)])
     = Raise (KeyError "medicines")
  /\ get_prescription strict_int strict_str message_of Table.execute 2 spoiled
     = (Raise (HTTPException 500 "An error occurred: medicines"), spoiled)
  /\ status (fst (read_prescription strict_int strict_str message_of
                    Table.execute 2 spoiled)) = 500.
Proof.
  split; [reflexivity|]. split; [reflexivity|].
  apply (get_prescription_bad_row strict_int strict_str message_of
           Table.store Table.execute 2 spoiled spoiled
           (JDict [("id", JInt 2)]) [] (KeyError "medicines"));
    reflexivity.
Defined.

(** ** The table store, continued *)

Lemma has_id_inv (j : Z) (row : dict) :
  Table.has_id j row = true -> dict_get "id" row = Some (JInt j).
Proof.
  unfold Table.has_id, Table.satisfies. cbn [fst snd].
  destruct (dict_get "id" row) as [[| |i| | |]|]; try discriminate.
  cbn. now intros ->%Z.eqb_eq.
Qed.

Lemma has_id_other (i j : Z) (row : dict) :
  i <> j -> Table.has_id j row = true -> Table.has_id i row = false.
Proof.
  intros Hij Hj. apply has_id_inv in Hj.
  unfold Table.has_id, Table.satisfies. cbn [fst snd]. rewrite Hj. cbn.
  apply Z.eqb_neq. congruence.
Qed.

Lemma filter_others (i j : Z) (rows : list dict) :
  i <> j ->
  filter (Table.has_id j) (filter (fun r => negb (Table.has_id i r)) rows)
  = filter (Table.has_id j) rows.
Proof.
  intro Hij. induction rows as [|r rows IH]; [reflexivity|].
  cbn [filter]. destruct (Table.has_id j r) eqn:Hj.
  - rewrite (has_id_other i j r Hij Hj). cbn [negb filter].
    now rewrite Hj, IH.
  - destruct (negb (Table.has_id i r)); cbn [filter]; now rewrite ?Hj, IH.
Qed.

Lemma filter_negb_absent {A : Type} (p : A -> bool) (xs : list A) :
  existsb p xs = false -> filter (fun x => negb (p x)) xs = xs.
Proof.
  induction xs as [|x xs IH]; [reflexivity|].
  cbn. intros [Hx Hxs]%orb_false_iff. now rewrite Hx, IH.
Qed.

Lemma stored_rows_app (recs recs' : list (Z * FormData)) :
  stored_rows (recs ++ recs') = (stored_rows recs ++ stored_rows recs')%list.
Proof. apply map_app. Qed.

Lemma filter_has_id_stored_rows (i : Z) (recs : list (Z * FormData)) :
  filter (Table.has_id i) (stored_rows recs)
  = stored_rows (filter (fun r => fst r =? i) recs).
Proof.
  induction recs as [|[j f] recs IH]; [reflexivity|].
  change (stored_rows ((j, f) :: recs)) with (stored j f :: stored_rows recs).
  cbn [filter fst]. rewrite has_id_stored.
  destruct (j =? i); now rewrite IH.
Qed.

Lemma filter_not_has_id_stored_rows (i : Z) (recs : list (Z * FormData)) :
  filter (fun r => negb (Table.has_id i r)) (stored_rows recs)
  = stored_rows (without i recs).
Proof.
  induction recs as [|[j f] recs IH]; [reflexivity|].
  change (stored_rows ((j, f) :: recs)) with (stored j f :: stored_rows recs).
  unfold without. cbn [filter fst]. rewrite has_id_stored.
  fold (without i recs).
  destruct (j =? i); cbn [negb]; now rewrite IH.
Qed.

Lemma first_under_filter (i : Z) (recs : list (Z * FormData)) :
  first_under i recs = hd_error (filter (fun r => fst r =? i) recs).
Proof.
  induction recs as [|r recs IH]; [reflexivity|].
  unfold first_under. cbn [find filter].
  destruct (fst r =? i); [reflexivity | exact IH].
Qed.

Lemma table_after_delete (exn_str : exn -> string) (i : Z)
    (st : Table.store) :
  snd (delete_prescription exn_str Table.execute i st)
  = Table.mkStore
      (filter (fun r => negb (Table.has_id i r)) (Table.rows st))
      (Table.next_id st).
Proof. now rewrite delete_prescription_state, execute_deleting. Qed.

Lemma table_after_create validate_int validate_str exn_str (f : FormData)
    (st : Table.store) :
  snd (create_prescription validate_int validate_str exn_str Table.execute
         f st)
  = Table.mkStore (Table.rows st ++ [stored (Table.next_id st) f])
      (Table.next_id st + 1).
Proof. now rewrite create_prescription_state, execute_creating. Qed.

Lemma execute_listing_reads (drid : option Z) (st : Table.store) :
  snd (Table.execute (listing drid) st) = st.
Proof.
  unfold listing. destruct drid as [n|]; [destruct (truthy (Some n))|];
    reflexivity.
Qed.

Section Shelf.

Variable validate_int : json -> option Z.
Variable validate_str : json -> option string.
Variable exn_str : exn -> string.

Hypothesis validate_int_ok : forall n, validate_int (JInt n) = Some n.
Hypothesis validate_str_ok : forall s, validate_str (JStr s) = Some s.

Local Abbreviation create :=
  (create_prescription validate_int validate_str exn_str Table.execute).
Local Abbreviation list_ :=
  (get_prescriptions validate_int validate_str exn_str Table.execute).
Local Abbreviation get :=
  (get_prescription validate_int validate_str exn_str Table.execute).
Local Abbreviation del := (delete_prescription exn_str Table.execute).

(** The two reading handlers never change the table, whatever they
    answer; nor does [delete_prescription] at an id no row carries. *)
Lemma reads_leave_table (i : Z) (drid : option Z) (st : Table.store) :
  snd (get i st) = st
  /\ snd (list_ drid st) = st
  /\ (existsb (Table.has_id i) (Table.rows st) = false -> snd (del i st) = st).
Proof.
  split; [|split].
  - now rewrite get_prescription_state, execute_reading.
  - now rewrite get_prescriptions_state, execute_listing_reads.
  - intro H. rewrite table_after_delete, (filter_negb_absent _ _ H).
    now destruct st.
Qed.

(** A table of well-formed rows stays one: [create_prescription] puts
    the payload last, under the table's next id, and
    [delete_prescription] takes out the rows under its id and no other. *)
Lemma table_after_write (recs : list (Z * FormData)) (f : FormData)
    (i : Z) (st : Table.store) :
  Table.rows st = stored_rows recs ->
  Table.rows (snd (create f st))
  = stored_rows (recs ++ [(Table.next_id st, f)])
  /\ Table.rows (snd (del i st)) = stored_rows (without i recs).
Proof.
  intro H. split.
  - rewrite table_after_create. cbn [Table.rows].
    now rewrite H, stored_rows_app.
  - rewrite table_after_delete. cbn [Table.rows].
    now rewrite H, filter_not_has_id_stored_rows.
Qed.

(** X10: on a table of well-formed rows [get_prescription] returns the
    first record kept under the id, and raises the 404 exactly when no
    record is kept under it. *)
Theorem get_prescription_first_under (recs : list (Z * FormData)) (i : Z)
    (st : Table.store) :
  Table.rows st = stored_rows recs ->
  get i st
  = (match first_under i recs with
     | Some r => Return (with_id (fst r) (snd r))
     | None => Raise (HTTPException 404 "Prescription not found")
     end, st).
Proof.
  intro H. pose proof (execute_reading i st) as Hread.
  rewrite H, filter_has_id_stored_rows in Hread.
  rewrite first_under_filter.
  destruct (filter (fun r => fst r =? i) recs) as [|[j f] rest].
  - now apply get_prescription_no_rows.
  - cbn [stored_rows map fst snd] in Hread.
    rewrite (get_prescription_row _ _ _ _ _ _ _ _ _ _ Hread).
    cbn [hd_error fst snd].
    now rewrite (to_response_stored _ _ validate_int_ok validate_str_ok).
Qed.

(** X11: deleting under one id does not change what [get_prescription]
    answers at any other id. *)
Theorem delete_leaves_others (i j : Z) (st : Table.store) :
  i <> j ->
  fst (get j (snd (del i st))) = fst (get j st).
Proof.
  intro Hij. rewrite table_after_delete.
  rewrite (get_prescription_of_data _ _ _ _ _ _ _ _ _ (execute_reading j _)).
  rewrite (get_prescription_of_data _ _ _ _ _ _ _ _ _ (execute_reading j st)).
  cbn [Table.rows]. now rewrite filter_others.
Qed.

(** X12: creating a prescription does not change what [get_prescription]
    answers at any id other than the one the table assigns. *)
Theorem create_leaves_others (f : FormData) (j : Z) (st : Table.store) :
  j <> Table.next_id st ->
  fst (get j (snd (create f st))) = fst (get j st).
Proof.
  intro Hj. rewrite table_after_create.
  rewrite (get_prescription_of_data _ _ _ _ _ _ _ _ _ (execute_reading j _)).
  rewrite (get_prescription_of_data _ _ _ _ _ _ _ _ _ (execute_reading j st)).
  cbn [Table.rows]. rewrite filter_app. cbn [filter].
  rewrite has_id_stored.
  assert ((Table.next_id st =? j) = false) as -> by (apply Z.eqb_neq; congruence).
  now rewrite app_nil_r.
Qed.

Lemma get_after_create (f : FormData) (st : Table.store) :
  Table.fresh_ids st = true ->
  get (Table.next_id st) (snd (create f st))
  = (Return (with_id (Table.next_id st) f), snd (create f st)).
Proof.
  intro Hfresh. rewrite table_after_create.
  pose proof (execute_reading (Table.next_id st)
                (Table.mkStore
                   (Table.rows st ++ [stored (Table.next_id st) f])
                   (Table.next_id st + 1))) as Hread.
  cbn [Table.rows] in Hread.
  rewrite filter_app, (fresh_ids_none st Hfresh) in Hread.
  cbn [filter app] in Hread. rewrite has_id_stored, Z.eqb_refl in Hread.
  cbn [map] in Hread.
  rewrite (get_prescription_row _ _ _ _ _ _ _ _ _ _ Hread).
  now rewrite (to_response_stored _ _ validate_int_ok validate_str_ok).
Qed.

(** X13: two prescriptions created one after the other get consecutive ids,
    and on a table with fresh ids each is then read back under its own
    id. *)
Theorem create_twice (f g : FormData) (st : Table.store) :
  Table.fresh_ids st = true ->
  let n := Table.next_id st in
  let st1 := snd (create f st) in
  let st2 := snd (create g st1) in
  fst (create f st) = Return (with_id n f)
  /\ fst (create g st1) = Return (with_id (n + 1) g)
  /\ fst (get n st2) = Return (with_id n f)
  /\ fst (get (n + 1) st2) = Return (with_id (n + 1) g).
Proof.
  intros Hfresh n st1 st2.
  pose proof (create_on_table validate_int validate_str exn_str
                validate_int_ok validate_str_ok) as Hcreate.
  assert (H1 : st1 = Table.mkStore (Table.rows st ++ [stored n f]) (n + 1))
    by apply table_after_create.
  assert (H2 : st2 = Table.mkStore
                       ((Table.rows st ++ [stored n f]) ++ [stored (n + 1) g])
                       (n + 1 + 1)).
  { unfold st2. rewrite table_after_create. now rewrite H1. }
  pose proof (fresh_ids_none st Hfresh) as Hnone. fold n in Hnone.
  assert (Hnone' : filter (Table.has_id (n + 1)) (Table.rows st) = []).
  { apply filter_none_absent. apply Bool.not_true_is_false. intro Hex.
    apply existsb_exists in Hex as [r [Hin Hr]].
    unfold Table.fresh_ids in Hfresh. rewrite forallb_forall in Hfresh.
    specialize (Hfresh r Hin). fold n in Hfresh.
    apply has_id_inv in Hr. unfold Table.below in Hfresh.
    rewrite Hr in Hfresh. apply Z.ltb_lt in Hfresh. lia. }
  repeat split.
  - now rewrite Hcreate.
  - rewrite Hcreate, H1. reflexivity.
  - rewrite (get_prescription_of_data _ _ _ _ _ _ _ _ _
               (execute_reading n st2)), H2.
    cbn [Table.rows]. rewrite !filter_app, Hnone. cbn [filter app].
    rewrite !has_id_stored, Z.eqb_refl.
    assert ((n + 1 =? n) = false) as -> by (apply Z.eqb_neq; lia).
    cbn [map app]. cbv iota.
    now rewrite (to_response_stored _ _ validate_int_ok validate_str_ok).
  - rewrite (get_prescription_of_data _ _ _ _ _ _ _ _ _
               (execute_reading (n + 1) st2)), H2.
    cbn [Table.rows]. rewrite !filter_app, Hnone'. cbn [filter app].
    rewrite !has_id_stored, Z.eqb_refl.
    assert ((n =? n + 1) = false) as -> by (apply Z.eqb_neq; lia).
    cbn [map app]. cbv iota.
    now rewrite (to_response_stored _ _ validate_int_ok validate_str_ok).
Qed.

(** X16: deleting an id the table holds returns the message and removes
    every row under it; deleting it again finds nothing, answers 500 and
    leaves the table as it is. *)
Theorem delete_twice (i : Z) (st : Table.store) :
  existsb (Table.has_id i) (Table.rows st) = true ->
  let st1 := snd (del i st) in
  fst (del i st) = Return message
  /\ existsb (Table.has_id i) (Table.rows st1) = false
  /\ status (fst (remove_prescription exn_str Table.execute i st1)) = 500
  /\ snd (del i st1) = st1.
Proof.
  intros Hex st1.
  assert (H1 : st1 = Table.mkStore
                       (filter (fun r => negb (Table.has_id i r))
                          (Table.rows st)) (Table.next_id st))
    by apply table_after_delete.
  assert (Hgone : existsb (Table.has_id i) (Table.rows st1) = false).
  { rewrite H1. cbn [Table.rows]. apply Bool.not_true_is_false. intro H.
    apply existsb_exists in H as [r [[_ Hin]%filter_In Hr]].
    now rewrite Hr in Hin. }
  split; [|split; [exact Hgone|]].
  - pose proof (execute_deleting i st) as Hd.
    destruct (filter (Table.has_id i) (Table.rows st)) as [|row rest] eqn:Hf.
    + apply existsb_exists in Hex as [r [Hin Hr]].
      assert (In r []) as [] . rewrite <- Hf. now apply filter_In.
    + now rewrite (delete_prescription_rows _ _ _ _ _ _ _ _ Hd).
  - pose proof (execute_deleting i st1) as Hd.
    rewrite (filter_none_absent _ _ Hgone) in Hd.
    rewrite (filter_negb_absent _ _ Hgone) in Hd.
    assert (Hst : Table.mkStore (Table.rows st1) (Table.next_id st1) = st1)
      by now destruct st1.
    rewrite Hst in Hd.
    pose proof (delete_prescription_no_rows exn_str Table.store Table.execute
                  i st1 st1 Hd) as Hraise.
    split; [|now rewrite Hraise].
    unfold remove_prescription. rewrite served_run. now rewrite Hraise.
Qed.

(** X17: on a table with fresh ids, posting a well-formed payload is
    answered with the payload's own fields led by the new id, and reading
    that id is then answered with the same body. *)
Theorem post_then_read (f : FormData) (st : Table.store) :
  Table.fresh_ids st = true ->
  let body := JDict (stored (Table.next_id st) f) in
  let st1 := snd (create f st) in
  post_prescriptions validate_int validate_str exn_str Table.execute
    (JDict (FormData_dict f)) st = (OK body, st1)
  /\ read_prescription validate_int validate_str exn_str Table.execute
       (Table.next_id st) st1 = (OK body, st1).
Proof.
  intros Hfresh body st1.
  pose proof (create_on_table validate_int validate_str exn_str
                validate_int_ok validate_str_ok f st) as Hc.
  pose proof (get_after_create f st Hfresh) as Hg.
  rewrite <- table_after_create
    with (validate_int := validate_int) (validate_str := validate_str)
         (exn_str := exn_str) in Hc.
  fold st1 in Hc, Hg. split.
  - unfold post_prescriptions.
    rewrite (FormData_validate_dict _ _ validate_int_ok validate_str_ok).
    rewrite served_run. now rewrite Hc.
  - unfold read_prescription. rewrite served_run. now rewrite Hg.
Qed.

End Shelf.

Lemma strict_int_ok (n : Z) : strict_int (JInt n) = Some n.
Proof. reflexivity. Qed.

Lemma strict_str_ok (s : string) : strict_str (JStr s) = Some s.
Proof. reflexivity. Qed.

Lemma reads_leave_table_witness :
  snd (get_prescription strict_int strict_str message_of Table.execute
         2 spoiled) = spoiled
  /\ snd (get_prescriptions strict_int strict_str message_of Table.execute
            (Some 1) spoiled) = spoiled
  /\ snd (delete_prescription message_of Table.execute 7 spoiled) = spoiled.
Proof.
  destruct (reads_leave_table strict_int strict_str message_of 2 (Some 1)
              spoiled) as [Hget [Hlist _]].
  destruct (reads_leave_table strict_int strict_str message_of 7 None
              spoiled) as [_ [_ Hdel]].
  split; [exact Hget|]. split; [exact Hlist|].
  apply Hdel. reflexivity.
Defined.

Lemma table_after_write_witness :
  Table.rows (snd (create_prescription strict_int strict_str message_of
                     Table.execute jane with_both))
  = stored_rows ([(1, jane); (2, john)] ++ [(3, jane)])
  /\ Table.rows (snd (delete_prescription message_of Table.execute 1
                        with_both))
     = stored_rows (without 1 [(1, jane); (2, john)]).
Proof.
  apply (table_after_write strict_int strict_str message_of
           [(1, jane); (2, john)] jane 1 with_both).
  reflexivity.
Defined.

Lemma get_prescription_first_under_witness :
  get_prescription strict_int strict_str message_of Table.execute 1 twice
  = (Return (with_id 1 jane), twice)
  /\ get_prescription strict_int strict_str message_of Table.execute 5 twice
     = (Raise (HTTPException 404 "Prescription not found"), twice).
Proof.
  split.
  - apply (get_prescription_first_under strict_int strict_str message_of
             strict_int_ok strict_str_ok [(1, jane); (1, john)] 1 twice).
    reflexivity.
  - apply (get_prescription_first_under strict_int strict_str message_of
             strict_int_ok strict_str_ok [(1, jane); (1, john)] 5 twice).
    reflexivity.
Defined.

Lemma delete_leaves_others_witness :
  fst (get_prescription strict_int strict_str message_of Table.execute 2
         (snd (delete_prescription message_of Table.execute 1 with_both)))
  = Return (with_id 2 john).
Proof.
  rewrite (delete_leaves_others strict_int strict_str message_of 1 2
             with_both); [reflexivity | lia].
Defined.

Lemma create_leaves_others_witness :
  fst (get_prescription strict_int strict_str message_of Table.execute 1
         (snd (create_prescription strict_int strict_str message_of
                 Table.execute john with_jane)))
  = Return (with_id 1 jane).
Proof.
  rewrite (create_leaves_others strict_int strict_str message_of john 1
             with_jane); [reflexivity | cbn; lia].
Defined.

Lemma create_twice_witness :
  let st1 := snd (create_prescription strict_int strict_str message_of
                    Table.execute jane Table.empty) in
  let st2 := snd (create_prescription strict_int strict_str message_of
                    Table.execute john st1) in
  fst (create_prescription strict_int strict_str message_of Table.execute
         jane Table.empty) = Return (with_id 1 jane)
  /\ fst (create_prescription strict_int strict_str message_of Table.execute
            john st1) = Return (with_id (1 + 1) john)
  /\ fst (get_prescription strict_int strict_str message_of Table.execute
            1 st2) = Return (with_id 1 jane)
  /\ fst (get_prescription strict_int strict_str message_of Table.execute
            (1 + 1) st2) = Return (with_id (1 + 1) john).
Proof.
  apply (create_twice strict_int strict_str message_of strict_int_ok
           strict_str_ok jane john Table.empty).
  reflexivity.
Defined.

Lemma delete_twice_witness :
  let st1 := snd (delete_prescription message_of Table.execute 1 with_both) in
  existsb (Table.has_id 1) (Table.rows with_both) = true
  /\ fst (delete_prescription message_of Table.execute 1 with_both)
     = Return message
  /\ existsb (Table.has_id 1) (Table.rows st1) = false
  /\ status (fst (remove_prescription message_of Table.execute 1 st1)) = 500
  /\ snd (delete_prescription message_of Table.execute 1 st1) = st1.
Proof.
  split; [reflexivity|].
  apply (delete_twice message_of 1 with_both). reflexivity.
Defined.

Lemma post_then_read_witness :
  let st1 := snd (create_prescription strict_int strict_str message_of
                    Table.execute jane Table.empty) in
  post_prescriptions strict_int strict_str message_of Table.execute
    (JDict (FormData_dict jane)) Table.empty
  = (OK (JDict (stored 1 jane)), st1)
  /\ read_prescription strict_int strict_str message_of Table.execute 1 st1
     = (OK (JDict (stored 1 jane)), st1).
Proof.
  apply (post_then_read strict_int strict_str message_of strict_int_ok
           strict_str_ok jane Table.empty).
  reflexivity.
Defined.
